(** * linkVault backend: the paste controller over its two stores

    A shallow embedding of [src/controllers/paste.controller.js]
    ([createPaste], [getPaste], [downloadPaste], [previewPaste],
    [deletePaste]).  The handlers are written in a small state-and-exception
    monad over a [World] that holds the metadata table [pastes], the storage
    bucket [pastes], the clock and the behaviour of the upstream service for
    the calls to come; a run also yields the calls it made, in order. *)

From Stdlib Require Import ZArith Lia String Ascii List.
From stdpp Require Import base option list gmap strings sorting.

Set Warnings "-register-all".

Local Open Scope Z_scope.
Local Open Scope string_scope.

(** ** Data *)

(** A Node [Buffer]. *)
Definition Buffer := list Byte.byte.

(** A row of the table [pastes] as [select("*")] returns it.  A timestamp
    column is kept as the number of milliseconds since the epoch that
    [new Date(column)] reads from it; [None] is SQL/JSON [null]. *)
Record Paste := {
  slug : string;
  user_id : string;
  filename : string;
  mimetype : string;
  storage_path : string;
  password_hash : option string;
  expires_at : option Z;
  max_views : option Z;
  max_downloads : option Z;
  view_count : Z;
  download_count : Z;
  created_at : Z
}.

(** The object handed to [.update(...)]. *)
Inductive Patch :=
| Set_view_count (n : Z)
| Set_download_count (n : Z).

Definition apply_patch (u : Patch) (p : Paste) : Paste :=
  match u with
  | Set_view_count n =>
      {| slug := slug p; user_id := user_id p; filename := filename p;
         mimetype := mimetype p; storage_path := storage_path p;
         password_hash := password_hash p; expires_at := expires_at p;
         max_views := max_views p; max_downloads := max_downloads p;
         view_count := n; download_count := download_count p;
         created_at := created_at p |}
  | Set_download_count n =>
      {| slug := slug p; user_id := user_id p; filename := filename p;
         mimetype := mimetype p; storage_path := storage_path p;
         password_hash := password_hash p; expires_at := expires_at p;
         max_views := max_views p; max_downloads := max_downloads p;
         view_count := view_count p; download_count := n;
         created_at := created_at p |}
  end.

(** The object handed to [.insert(...)] by [createPaste]. *)
Record NewPaste := {
  new_slug : string;
  new_user_id : string;
  new_filename : string;
  new_mimetype : string;
  new_storage_path : string;
  new_password_hash : option string;
  new_expires_at : option Z;
  new_max_views : option Z;
  new_max_downloads : option Z
}.

Inductive Error :=
| PostgrestError
| StorageError
| FetchError
| TypeError.

(** What an awaited Supabase call resolves to: [{ data, error }]. *)
Record Reply (A : Type) := mkReply { data : option A; error : option Error }.
Arguments mkReply {A} _ _.
Arguments data {A} _.
Arguments error {A} _.

(** The calls the controller makes on the Supabase client. *)
Inductive Call :=
| Select_single (s : string)
| Update (s : string) (u : Patch)
| Insert (r : NewPaste)
| Delete (s : string)
| Storage_upload (path : string)
| Storage_download (path : string)
| Storage_remove (path : string).

(** How the upstream service behaves on one call: it does the work, it
    resolves with [error] set and [data] null, or the awaited promise
    rejects. *)
Inductive Fault := Succeeds | ReturnsError | Rejects.

Record World := {
  pastes : list Paste;
  bucket : gmap string Buffer;
  clock : Z;
  faults : list Fault
}.

(** JSON bodies and Express responses. *)
Inductive Json :=
| JNull
| JBool (b : bool)
| JNum (z : Z)
| JStr (s : string)
| JObject (fields : list (string * Json)).

Inductive Response :=
| Res_json (status : Z) (body : Json)
| Res_send (headers : list (string * string)) (body : Buffer)
| Next (err : Error).

(** Modelled from the spec: the error middleware, which is not under src/;
    it answers 500 to an error passed to [next].  [res.send] and [res.json]
    without [res.status] answer 200. *)
Definition status (r : Response) : Z :=
  match r with
  | Res_json s _ => s
  | Res_send _ _ => 200
  | Next _ => 500
  end.

(** ** The monad of an [async] handler body *)

Inductive Completion (A : Type) :=
| Normal (a : A)
| Throw (e : Error).
Arguments Normal {A} _.
Arguments Throw {A} _.

(** What a run leaves behind: its result, the world after it, and the
    calls it made on the Supabase client, oldest first, each with the way
    the service behaved. *)
Record Outcome (A : Type) := mkOutcome {
  result : A;
  after : World;
  calls : list (Call * Fault)
}.
Arguments mkOutcome {A} _ _ _.
Arguments result {A} _.
Arguments after {A} _.
Arguments calls {A} _.

Definition Async (A : Type) := World -> Outcome (Completion A).

Definition ret {A} (a : A) : Async A := fun w => mkOutcome (Normal a) w [].

Definition throw {A} (e : Error) : Async A := fun w => mkOutcome (Throw e) w [].

Definition bind {A B} (m : Async A) (k : A -> Async B) : Async B :=
  fun w =>
    let o := m w in
    match result o with
    | Normal a =>
        let o' := k a (after o) in
        mkOutcome (result o') (after o') (calls o ++ calls o')
    | Throw e => mkOutcome (Throw e) (after o) (calls o)
    end.

Notation "'await' x <- m ;; k" := (bind m (fun x => k))
  (at level 10, x name, m at level 99, k at level 200).
Notation "'do' m ;; k" := (bind m (fun _ => k))
  (at level 10, m at level 99, k at level 200).

(** [try { body } catch (err) { next(err) }] *)
Definition try_catch_next (body : Async Response) (w : World) : Outcome Response :=
  let o := body w in
  mkOutcome (match result o with
             | Normal r => r
             | Throw e => Next e
             end)
            (after o) (calls o).

(** ** The Supabase client *)

Definition error_of (c : Call) : Error :=
  match c with
  | Storage_upload _ | Storage_download _ | Storage_remove _ => StorageError
  | _ => PostgrestError
  end.

Definition next_fault (w : World) : Fault := hd Succeeds (faults w).

Definition popped (w : World) : World :=
  {| pastes := pastes w; bucket := bucket w; clock := clock w;
     faults := tl (faults w) |}.

(** One awaited call: the next entry of [faults] says how the service
    behaves (none left: it succeeds); a call that does not succeed leaves
    both stores as they were. *)
Definition supabase {A} (c : Call) (run : World -> Reply A * World) : Async (Reply A) :=
  fun w =>
    let f := next_fault w in
    let w1 := popped w in
    match f with
    | Succeeds => let (r, w2) := run w1 in mkOutcome (Normal r) w2 [(c, f)]
    | ReturnsError =>
        mkOutcome (Normal (mkReply None (Some (error_of c)))) w1 [(c, f)]
    | Rejects => mkOutcome (Throw FetchError) w1 [(c, f)]
    end.

Definition with_pastes (t : list Paste) (w : World) : World :=
  {| pastes := t; bucket := bucket w; clock := clock w; faults := faults w |}.

Definition with_bucket (b : gmap string Buffer) (w : World) : World :=
  {| pastes := pastes w; bucket := b; clock := clock w; faults := faults w |}.

Definition ok {A} (a : A) : Reply A := mkReply (Some a) None.

(** [.eq("slug", s)] *)
Definition eq_slug (s : string) (t : list Paste) : list Paste :=
  filter (fun r => slug r = s) t.

(** [supabase.from("pastes").select("*").eq("slug", s).single()]: the row
    when exactly one matches, an error otherwise. *)
Definition from_pastes_select_single (s : string) : Async (Reply Paste) :=
  supabase (Select_single s) (fun w =>
    match eq_slug s (pastes w) with
    | [r] => (ok r, w)
    | _ => (mkReply None (Some PostgrestError), w)
    end).

(** [supabase.from("pastes").update(u).eq("slug", s)] *)
Definition from_pastes_update (u : Patch) (s : string) : Async (Reply unit) :=
  supabase (Update s u) (fun w =>
    (ok tt,
     with_pastes
       (map (fun r => if decide (slug r = s) then apply_patch u r else r) (pastes w))
       w)).

(** [supabase.from("pastes").delete().eq("slug", s)] *)
Definition from_pastes_delete (s : string) : Async (Reply unit) :=
  supabase (Delete s) (fun w =>
    (ok tt, with_pastes (filter (fun r => slug r <> s) (pastes w)) w)).

(** Modelled from the spec: the table's column defaults, which are not
    under src/ ([createPaste] leaves them out of the inserted object):
    counters start at 0 and [created_at] is the time of the insert. *)
Definition row_of_insert (r : NewPaste) (now : Z) : Paste :=
  {| slug := new_slug r; user_id := new_user_id r; filename := new_filename r;
     mimetype := new_mimetype r; storage_path := new_storage_path r;
     password_hash := new_password_hash r; expires_at := new_expires_at r;
     max_views := new_max_views r; max_downloads := new_max_downloads r;
     view_count := 0; download_count := 0; created_at := now |}.

(** [supabase.from("pastes").insert(r)] *)
Definition from_pastes_insert (r : NewPaste) : Async (Reply unit) :=
  supabase (Insert r) (fun w =>
    (ok tt, with_pastes (pastes w ++ [row_of_insert r (clock w)]) w)).

(** [supabase.storage.from("pastes").upload(path, buffer, ...)] *)
Definition storage_upload (path : string) (buffer : Buffer) : Async (Reply unit) :=
  supabase (Storage_upload path) (fun w =>
    (ok tt, with_bucket (<[path := buffer]> (bucket w)) w)).

(** [supabase.storage.from("pastes").download(path)] *)
Definition storage_download (path : string) : Async (Reply Buffer) :=
  supabase (Storage_download path) (fun w =>
    match bucket w !! path with
    | Some b => (ok b, w)
    | None => (mkReply None (Some StorageError), w)
    end).

(** [supabase.storage.from("pastes").remove([path])] *)
Definition storage_remove (path : string) : Async (Reply unit) :=
  supabase (Storage_remove path) (fun w =>
    (ok tt, with_bucket (delete path (bucket w)) w)).

(** ** JavaScript helpers *)

(** [new Date(column)] as a time value: [new Date(null)] is the epoch. *)
Definition new_Date (column : option Z) : Z :=
  match column with
  | None => 0
  | Some t => t
  end.

(** [new Date()] *)
Definition Date_now : Async Z := fun w => mkOutcome (Normal (clock w)) w [].

(** Truthiness of a string-or-null / string-or-undefined value. *)
Definition truthy (v : option string) : bool :=
  match v with
  | None => false
  | Some s => negb (String.eqb s EmptyString)
  end.

(** [Buffer.from(await blob.arrayBuffer())]: a null [blob] is a TypeError. *)
Definition arrayBuffer (blob : option Buffer) : Async Buffer :=
  match blob with
  | Some b => ret b
  | None => throw TypeError
  end.

(** The double-quote character of the template literals. *)
Definition dquote : string := String (ascii_of_nat 34) EmptyString.

(** [String.prototype.trim] leaves nothing: every character is white space
    (the ASCII white space characters; the others JavaScript strips lie
    outside one-byte characters). *)
Definition is_space (c : ascii) : bool :=
  let n := nat_of_ascii c in
  ((9 <=? n)%nat && (n <=? 13)%nat) || (n =? 32)%nat.

Definition trim_is_empty (s : string) : bool :=
  forallb is_space (list_ascii_of_string s).

(** The time value of [new Date(ms)] as JSON serialises it: a time value
    out of the range of [Date] is an invalid date, written [null]. *)
Definition Date_toJSON (ms : Z) : option Z :=
  if (Z.abs ms <=? 8640000000000000)%Z then Some ms else None.

Definition json_opt (v : option Z) : Json :=
  match v with
  | Some z => JNum z
  | None => JNull
  end.

Definition message (m : string) : Json := JObject [("message", JStr m)].

(** ** Requests *)

Record Req := {
  params_slug : string;
  query_password : option string
}.

(** [req.file], as multer leaves it. *)
Record File := {
  originalname : string;
  file_mimetype : string;
  buffer : Buffer
}.

(** The multipart request of [createPaste]: text fields are strings or
    undefined. *)
Record CreateReq := {
  body_user_id : option string;
  body_password : option string;
  body_expires_in : option string;
  body_max_views : option string;
  body_max_downloads : option string;
  file : option File
}.

Section Handlers.

(** [bcrypt.compare(password, hash)] *)
Variable bcrypt_compare : string -> string -> bool.

(** *** [getPaste] *)
Definition getPaste_body (req : Req) : Async Response :=
  let slug := params_slug req in
  let password := query_password req in
  await r <- from_pastes_select_single slug ;;
  match data r with
  | None => ret (Res_json 404 (message "Not found"))
  | Some paste =>
    await now <- Date_now ;;
    if (new_Date (expires_at paste) <=? now)%Z then
      ret (Res_json 410 (message "This doc has expired"))
    else if match max_views paste with
            | Some m => (m <=? view_count paste)%Z
            | None => false
            end then
      ret (Res_json 403 (JObject [("type", JStr "view_limit");
                                  ("message", JStr "Maximum view limit reached")]))
    else
      (* the lines after the password block, reached from both its exits *)
      let admitted : Async Response :=
        (do from_pastes_update (Set_view_count (view_count paste + 1)) slug ;;
         await b <- storage_download (storage_path paste) ;;
         await buffer <- arrayBuffer (data b) ;;
         ret (Res_send [("Content-Type", mimetype paste);
                        ("Content-Disposition",
                         "inline; filename=" ++ dquote ++ filename paste ++ dquote)]
                       buffer)) in
      if truthy (password_hash paste) then
        if negb (truthy password) then
          ret (Res_json 401 (JObject [("message", JStr "Password required");
                                      ("protected", JBool true)]))
        else if negb (bcrypt_compare (default EmptyString password)
                                     (default EmptyString (password_hash paste))) then
          ret (Res_json 403 (JObject [("type", JStr "invalid_password");
                                      ("message", JStr "Invalid password")]))
        else admitted
      else admitted
  end.

Definition getPaste (req : Req) : World -> Outcome Response :=
  try_catch_next (getPaste_body req).

(** *** [downloadPaste] *)
Definition downloadPaste_body (req : Req) : Async Response :=
  let slug := params_slug req in
  await r <- from_pastes_select_single slug ;;
  match data r with
  | None => ret (Res_json 404 (message "Not found"))
  | Some paste =>
    await now <- Date_now ;;
    if (new_Date (expires_at paste) <=? now)%Z then
      ret (Res_json 410 (message "Expired"))
    else if match max_downloads paste with
            | Some m => (m <=? download_count paste)%Z
            | None => false
            end then
      ret (Res_json 403 (message "Maximum download limit reached"))
    else
      do from_pastes_update (Set_download_count (download_count paste + 1)) slug ;;
      await b <- storage_download (storage_path paste) ;;
      await buffer <- arrayBuffer (data b) ;;
      ret (Res_send [("Content-Type", mimetype paste);
                     ("Content-Disposition",
                      "attachment; filename=" ++ dquote ++ filename paste ++ dquote)]
                    buffer)
  end.

Definition downloadPaste (req : Req) : World -> Outcome Response :=
  try_catch_next (downloadPaste_body req).

(** *** [getUserPastes]: the [expired] flag of a listed row,
    [paste.expires_at && new Date(paste.expires_at) <= new Date()];
    a null [expires_at] leaves it null. *)
Definition getUserPastes_expired (paste : Paste) (now : Z) : Json :=
  match expires_at paste with
  | None => JNull
  | Some _ => JBool (new_Date (expires_at paste) <=? now)%Z
  end.

(** *** [previewPaste] *)

(** [buffer.toString("base64")] *)
Variable toString_base64 : Buffer -> string.

Definition preview_metadata (paste : Paste) : Json :=
  JObject [("slug", JStr (slug paste));
           ("filename", JStr (filename paste));
           ("mimetype", JStr (mimetype paste));
           ("created_at", JNum (created_at paste));
           ("expires_at", json_opt (expires_at paste));
           ("view_count", JNum (view_count paste));
           ("download_count", JNum (download_count paste));
           ("max_views", json_opt (max_views paste));
           ("max_downloads", json_opt (max_downloads paste));
           ("password_protected", JBool (truthy (password_hash paste)))].

Definition previewPaste_body (req : Req) : Async Response :=
  let slug := params_slug req in
  await r <- from_pastes_select_single slug ;;
  match error r, data r with
  | None, Some paste =>
      await b <- storage_download (storage_path paste) ;;
      await buffer <- arrayBuffer (data b) ;;
      ret (Res_json 200 (JObject [("metadata", preview_metadata paste);
                                  ("file", JStr (toString_base64 buffer));
                                  ("mimetype", JStr (mimetype paste))]))
  | _, _ => ret (Res_json 404 (message "Not found"))
  end.

Definition previewPaste (req : Req) : World -> Outcome Response :=
  try_catch_next (previewPaste_body req).

(** *** [deletePaste] *)
Definition deletePaste_body (req : Req) : Async Response :=
  let slug := params_slug req in
  await r <- from_pastes_select_single slug ;;
  match error r, data r with
  | None, Some paste =>
      await s <- storage_remove (storage_path paste) ;;
      match error s with
      | Some storageError =>
          ret (Res_json 500 (message "Failed to delete file from storage"))
      | None =>
          await d <- from_pastes_delete slug ;;
          match error d with
          | Some dbError => ret (Res_json 500 (message "Failed to delete metadata"))
          | None => ret (Res_json 200 (message "File deleted successfully"))
          end
      end
  | _, _ => ret (Res_json 404 (message "Paste not found"))
  end.

Definition deletePaste (req : Req) : World -> Outcome Response :=
  try_catch_next (deletePaste_body req).

(** *** [createPaste] *)

(** [Number(text)]: [None] is [NaN]; the model covers the texts whose
    numeric value is an integer. *)
Variable Number : string -> option Z.

(** [bcrypt.hash(password, 10)] *)
Variable bcrypt_hash : string -> string.

(** [process.env.BACKEND_BASE_URL] *)
Variable BACKEND_BASE_URL : string.

(** [uuid] is what [crypto.randomUUID()] returns in this call. *)
Definition createPaste_body (uuid : string) (req : CreateReq) : Async Response :=
  let maxViews := body_max_views req ≫= Number in
  let maxDownloads := body_max_downloads req ≫= Number in
  match file req with
  | Some f =>
    if negb (truthy (body_user_id req)) || negb (truthy (body_expires_in req)) then
      ret (Res_json 400 (message "user_id, file and expires_in are required"))
    else
      match Number (default EmptyString (body_expires_in req)) with
      | None =>
          ret (Res_json 400
                 (message "expires_in must be a positive number (minutes)"))
      | Some expiryMinutes =>
        if (expiryMinutes <=? 0)%Z then
          ret (Res_json 400
                 (message "expires_in must be a positive number (minutes)"))
        else
          await now <- Date_now ;;
          let expiresAt := Date_toJSON (now + expiryMinutes * 60 * 1000) in
          let slug := substring 0 8 uuid in
          let storagePath := "uploads/" ++ slug ++ "-" ++ originalname f in
          do storage_upload storagePath (buffer f) ;;
          let passwordHash :=
            match body_password req with
            | Some password =>
                if negb (trim_is_empty password)
                then Some (bcrypt_hash password) else None
            | None => None
            end in
          do from_pastes_insert
               {| new_slug := slug;
                  new_user_id := default EmptyString (body_user_id req);
                  new_filename := originalname f;
                  new_mimetype := file_mimetype f;
                  new_storage_path := storagePath;
                  new_password_hash := passwordHash;
                  new_expires_at := expiresAt;
                  new_max_views := maxViews;
                  new_max_downloads := maxDownloads |} ;;
          ret (Res_json 201
                 (JObject [("url", JStr (BACKEND_BASE_URL ++ "/api/pastes/" ++ slug));
                           ("protected", JBool (truthy passwordHash))]))
      end
  | None => ret (Res_json 400 (message "user_id, file and expires_in are required"))
  end.

Definition createPaste (uuid : string) (req : CreateReq) : World -> Outcome Response :=
  try_catch_next (createPaste_body uuid req).

End Handlers.

(** ** The listing of a user's pastes *)

(** What [getUserPastes] answers: [res.json(result)] with [result] an
    array, or one of the other responses. *)
Inductive ListResponse :=
| Res_json_array (items : list Json)
| Res_other (r : Response).

(** [.eq("user_id", u)] *)
Definition eq_user_id (u : string) (t : list Paste) : list Paste :=
  filter (fun r => user_id r = u) t.

(** [.order("created_at", { ascending: false })]; rows with the same
    [created_at] come in the order the database chooses, here the one of
    the merge sort. *)
Definition newer_first (a b : Paste) : Prop := created_at b <= created_at a.

#[global] Instance newer_first_dec (a b : Paste) : Decision (newer_first a b) :=
  decide (created_at b <= created_at a).

Definition order_created_at_desc (t : list Paste) : list Paste :=
  merge_sort newer_first t.

Section Listing.

(** [process.env.PUBLIC_BASE_URL] and [process.env.BACKEND_BASE_URL] *)
Variable PUBLIC_BASE_URL : string.
Variable BACKEND_BASE_URL : string.

(** The object [data.map] builds of one row. *)
Definition listed (now : Z) (paste : Paste) : Json :=
  JObject [("slug", JStr (slug paste));
           ("filename", JStr (filename paste));
           ("mimetype", JStr (mimetype paste));
           ("created_at", JNum (created_at paste));
           ("expires_at", json_opt (expires_at paste));
           ("expired", getUserPastes_expired paste now);
           ("view_count", JNum (view_count paste));
           ("download_count", JNum (download_count paste));
           ("max_views", json_opt (max_views paste));
           ("max_downloads", json_opt (max_downloads paste));
           ("view_url", JStr (PUBLIC_BASE_URL ++ "/p/" ++ slug paste));
           ("download_url",
            JStr (BACKEND_BASE_URL ++ "/api/pastes/" ++ slug paste ++ "/download"))].

(** [getUserPastes]: its one call is the select of the user's rows, which
    behaves as the next entry of [faults] says. *)
Definition getUserPastes (userId : string) (w : World) : ListResponse * World :=
  match next_fault w with
  | Rejects => (Res_other (Next FetchError), popped w)
  | ReturnsError =>
      (Res_other (Res_json 500 (message "Failed to fetch pastes")), popped w)
  | Succeeds =>
      (Res_json_array
         (map (listed (clock w))
              (order_created_at_desc (eq_user_id userId (pastes w)))),
       popped w)
  end.

End Listing.

(** ** The registration of a user: [user.service.js] and
    [user.controller.js] *)

Record User := {
  u_user_id : string;
  u_email : string;
  u_nickname : string
}.

(** How the upstream service behaves on the insert into [users]: the
    database does its work, the call resolves with an error of the given
    code, or the awaited promise rejects. *)
Inductive UserFault :=
| U_works
| U_error (code : string)
| U_rejects.

Record UserWorld := {
  users : list User;
  user_faults : list UserFault
}.

(** The [error] of a reply: its [code]. *)
Record PgError := { code : string }.

(** Modelled from the spec: the table [users], whose declaration is not
    under src/, keeps one row for a [user_id] ("register user if absent"):
    an insert of a [user_id] it already has resolves with the unique
    violation 23505 and changes nothing. *)
Definition users_insert (u : User) (w : UserWorld) : Completion (option PgError) * UserWorld :=
  let w1 := {| users := users w; user_faults := tl (user_faults w) |} in
  match hd U_works (user_faults w) with
  | U_rejects => (Throw FetchError, w1)
  | U_error c => (Normal (Some {| code := c |}), w1)
  | U_works =>
      if bool_decide (Exists (fun r => u_user_id r = u_user_id u) (users w))
      then (Normal (Some {| code := "23505" |}), w1)
      else (Normal None,
            {| users := users w ++ [u]; user_faults := tl (user_faults w) |})
  end.

(** [createUserIfNotExists]: the result is [created]. *)
Definition createUserIfNotExists (u : User) (w : UserWorld) : Completion bool * UserWorld :=
  match users_insert u w with
  | (Normal (Some error), w') =>
      if String.eqb (code error) "23505" then (Normal false, w')
      else (Throw PostgrestError, w')
  | (Normal None, w') => (Normal true, w')
  | (Throw e, w') => (Throw e, w')
  end.

(** The body of [POST /api/users]: fields are strings or undefined. *)
Record RegisterReq := {
  reg_user_id : option string;
  reg_email : option string;
  reg_nickname : option string
}.

(** [registerUser] *)
Definition registerUser (req : RegisterReq) (w : UserWorld) : Response * UserWorld :=
  if negb (truthy (reg_user_id req)) || negb (truthy (reg_email req))
     || negb (truthy (reg_nickname req))
  then (Res_json 400 (message "user_id, email and nickname are required"), w)
  else
    match createUserIfNotExists
            {| u_user_id := default EmptyString (reg_user_id req);
               u_email := default EmptyString (reg_email req);
               u_nickname := default EmptyString (reg_nickname req) |} w with
    | (Normal created, w') =>
        if negb created
        then (Res_json 200 (message "User already exists"), w')
        else (Res_json 201 (message "User created successfully"), w')
    | (Throw e, w') => (Next e, w')
    end.


(** ** Sample data *)

Definition sample_bytes : Buffer := [Byte.x25; Byte.x50; Byte.x44; Byte.x46].

Definition sample_paste (hash : option string) (expires views downloads : option Z)
    (viewed downloaded : Z) : Paste :=
  {| slug := "3f2a9c1e"; user_id := "u1"; filename := "notes.pdf";
     mimetype := "application/pdf";
     storage_path := "uploads/3f2a9c1e-notes.pdf";
     password_hash := hash; expires_at := expires;
     max_views := views; max_downloads := downloads;
     view_count := viewed; download_count := downloaded;
     created_at := 1699990000000 |}.

Definition sample_world (rows : list Paste) (fs : list Fault) : World :=
  {| pastes := rows;
     bucket := {[ "uploads/3f2a9c1e-notes.pdf" := sample_bytes ]};
     clock := 1700000000000;
     faults := fs |}.

Definition fresh_world (fs : list Fault) : World :=
  {| pastes := []; bucket := ∅; clock := 1700000000000; faults := fs |}.

Definition sample_req (password : option string) : Req :=
  {| params_slug := "3f2a9c1e"; query_password := password |}.

(** A stand-in for bcrypt on the sample data. *)
Definition sample_hash (password : string) : string := "hash of " ++ password.

Definition sample_compare (password hash : string) : bool :=
  String.eqb hash (sample_hash password).

Definition sample_base64 (b : Buffer) : string := string_of_list_byte b.

Definition sample_Number (text : string) : option Z :=
  if String.eqb text "60" then Some 60
  else if String.eqb text "1000000000000" then Some 1000000000000
  else None.

Definition sample_uuid : string := "3f2a9c1e-7b1d-4c55-9e0a-5d2f8a6b4c10".

(** Rows of the sample table: past its expiry; protected and live; without
    an expiry; at its view limit. *)
Definition expired_row : Paste :=
  sample_paste (Some (sample_hash "secret")) (Some 1699999999000) (Some 3) None 0 0.

Definition protected_row : Paste :=
  sample_paste (Some (sample_hash "secret")) (Some 1700000600000) None None 0 0.

Definition unexpiring_row : Paste :=
  sample_paste None None None None 0 0.

(** The row [createPaste] leaves for the sample upload. *)
Definition created_row (expires : option Z) : Paste :=
  {| slug := "3f2a9c1e"; user_id := "u1"; filename := "notes.pdf";
     mimetype := "application/pdf";
     storage_path := "uploads/3f2a9c1e-notes.pdf";
     password_hash := None; expires_at := expires;
     max_views := None; max_downloads := None;
     view_count := 0; download_count := 0;
     created_at := 1700000000000 |}.

Definition exhausted_row : Paste :=
  sample_paste (Some (sample_hash "secret")) (Some 1700000600000) (Some 2) None 2 0.

Definition sample_upload : CreateReq :=
  {| body_user_id := Some "u1";
     body_password := None;
     body_expires_in := Some "60";
     body_max_views := None;
     body_max_downloads := None;
     file := Some {| originalname := "notes.pdf";
                     file_mimetype := "application/pdf";
                     buffer := sample_bytes |} |}.

(** More rows, requests and worlds of the sample: a paste without password
    that allows two views; a paste of another user; an upload with a
    password; a create request without a file; an empty table of users. *)
Definition open_row : Paste :=
  sample_paste None (Some 1700000600000) (Some 2) None 0 0.

Definition other_users_row : Paste :=
  {| slug := "77aa00bb"; user_id := "u2"; filename := "slides.pdf";
     mimetype := "application/pdf";
     storage_path := "uploads/77aa00bb-slides.pdf";
     password_hash := None; expires_at := Some 1700000900000;
     max_views := None; max_downloads := None;
     view_count := 4; download_count := 1;
     created_at := 1699995000000 |}.


Definition upload_without_file : CreateReq :=
  {| body_user_id := Some "u1";
     body_password := None;
     body_expires_in := Some "60";
     body_max_views := None;
     body_max_downloads := None;
     file := None |}.

Definition upload_with_expiry (text : string) : CreateReq :=
  {| body_user_id := Some "u1";
     body_password := None;
     body_expires_in := Some text;
     body_max_views := None;
     body_max_downloads := None;
     file := file sample_upload |}.

Definition no_users : UserWorld := {| users := []; user_faults := [] |}.


(** ** Vocabulary of the properties *)

Local Open Scope list_scope.

(** The access was turned away by one of the gates. *)
Definition denied (r : Response) : Prop :=
  status r = 404 \/ status r = 410 \/ status r = 403 \/ status r = 401.

(** A row with one counter replaced and everything else kept. *)
Definition viewed_once (p : Paste) : Paste :=
  {| slug := slug p; user_id := user_id p; filename := filename p;
     mimetype := mimetype p; storage_path := storage_path p;
     password_hash := password_hash p; expires_at := expires_at p;
     max_views := max_views p; max_downloads := max_downloads p;
     view_count := view_count p + 1; download_count := download_count p;
     created_at := created_at p |}.

Definition downloaded_once (p : Paste) : Paste :=
  {| slug := slug p; user_id := user_id p; filename := filename p;
     mimetype := mimetype p; storage_path := storage_path p;
     password_hash := password_hash p; expires_at := expires_at p;
     max_views := max_views p; max_downloads := max_downloads p;
     view_count := view_count p; download_count := download_count p + 1;
     created_at := created_at p |}.

(** The rows other than those of slug [s]. *)
Definition other_rows (s : string) (t : list Paste) : list Paste :=
  filter (fun r => slug r <> s) t.

(** An outcome with one more call in front. *)
Definition preceded {A} (e : Call * Fault) (o : Outcome A) : Outcome A :=
  mkOutcome (result o) (after o) (e :: calls o).

(** A row within its limits. *)
Definition capped (r : Paste) : Prop :=
  (forall m, max_views r = Some m -> view_count r <= m)
  /\ (forall m, max_downloads r = Some m -> download_count r <= m).

(** A row as an access may leave it: untouched, or with one counter one
    higher. *)
Definition bumped (r r' : Paste) : Prop :=
  r' = r \/ r' = viewed_once r \/ r' = downloaded_once r.


(** The requests that read a paste. *)
Inductive Access :=
| View (req : Req)
| Download (req : Req)
| Preview (req : Req).

Section Accesses.

Variable bcrypt_compare : string -> string -> bool.
Variable toString_base64 : Buffer -> string.

Definition access (a : Access) (w : World) : Outcome Response :=
  match a with
  | View req => getPaste bcrypt_compare req w
  | Download req => downloadPaste req w
  | Preview req => previewPaste toString_base64 req w
  end.

(** The world after a sequence of accesses, one after the other. *)
Definition after_all (l : list Access) (w : World) : World :=
  foldl (fun w' a => after (access a w')) w l.

End Accesses.


(** A row as any number of accesses may leave it: the counters not lower,
    every other field the same. *)
Definition grown (r r' : Paste) : Prop :=
  slug r' = slug r /\ user_id r' = user_id r /\ filename r' = filename r
  /\ mimetype r' = mimetype r /\ storage_path r' = storage_path r
  /\ password_hash r' = password_hash r /\ expires_at r' = expires_at r
  /\ max_views r' = max_views r /\ max_downloads r' = max_downloads r
  /\ created_at r' = created_at r
  /\ view_count r <= view_count r' /\ download_count r <= download_count r'.


(** ** Properties *)

(** *** How a handler advances over one awaited call *)

Lemma bind_ret {A B} (a : A) (k : A -> Async B) w :
  bind (ret a) k w = k a w.
Proof. unfold bind, ret. cbn. now destruct (k a w). Qed.

Lemma bind_succeeds {A B} c (run : World -> Reply A * World) (k : Reply A -> Async B) w :
  next_fault w = Succeeds ->
  bind (supabase c run) k w
    = preceded (c, Succeeds) (k (run (popped w)).1 (run (popped w)).2).
Proof.
  intros E. unfold bind, supabase. rewrite E.
  now destruct (run (popped w)).
Qed.

Lemma bind_returns_error {A B} c (run : World -> Reply A * World) (k : Reply A -> Async B) w :
  next_fault w = ReturnsError ->
  bind (supabase c run) k w
    = preceded (c, ReturnsError) (k (mkReply None (Some (error_of c))) (popped w)).
Proof. intros E. unfold bind, supabase. now rewrite E. Qed.

Lemma bind_rejects {A B} c (run : World -> Reply A * World) (k : Reply A -> Async B) w :
  next_fault w = Rejects ->
  bind (supabase c run) k w = mkOutcome (Throw FetchError) (popped w) [(c, Rejects)].
Proof. intros E. unfold bind, supabase. now rewrite E. Qed.

Lemma bind_now {B} (k : Z -> Async B) w :
  bind Date_now k w = k (clock w) w.
Proof. unfold bind, Date_now. cbn. now destruct (k (clock w) w). Qed.

Lemma bind_arrayBuffer {B} (b : Buffer) (k : Buffer -> Async B) w :
  bind (arrayBuffer (Some b)) k w = k b w.
Proof. apply bind_ret. Qed.

Lemma bind_arrayBuffer_null {B} (k : Buffer -> Async B) w :
  bind (arrayBuffer None) k w = mkOutcome (Throw TypeError) w [].
Proof. reflexivity. Qed.

(** Advance over the next Supabase call, once for each way the service
    may behave. *)
Ltac call :=
  match goal with
  | |- context [bind (supabase ?c ?run) ?k ?w] =>
      let E := fresh "E" in
      destruct (next_fault w) eqn:E;
      [ rewrite (bind_succeeds c run k w E)
      | rewrite (bind_returns_error c run k w E)
      | rewrite (bind_rejects c run k w E) ]
  end.

Ltac open_handler :=
  unfold getPaste, downloadPaste, previewPaste, deletePaste, createPaste,
    try_catch_next, getPaste_body, downloadPaste_body, previewPaste_body,
    deletePaste_body, createPaste_body,
    from_pastes_select_single, from_pastes_update, from_pastes_delete,
    from_pastes_insert, storage_upload, storage_download, storage_remove.

(** *** Updating the rows of one slug *)




(** Follow a handler down every path: each call in each of its three
    behaviours, each test both ways. *)
Ltac explore :=
  open_handler;
  repeat first
    [ call
    | rewrite bind_now
    | rewrite bind_ret
    | rewrite bind_arrayBuffer
    | rewrite bind_arrayBuffer_null
    | progress cbn -[eq_slug other_rows Z.leb truthy bind supabase next_fault popped
                     with_pastes with_bucket apply_patch String.append]
    | match goal with
      | |- context [match eq_slug ?s ?t with _ => _ end] =>
          let Hrow := fresh "Hrow" in
          destruct (eq_slug s t) as [|? [|? ?]] eqn:Hrow
      | |- context [if ?b then _ else _] => destruct b eqn:?
      | |- context [match ?x with Some _ => _ | None => _ end] => destruct x eqn:?
      end ].

Section Policy.

Variable bcrypt_compare : string -> string -> bool.

(** C1 (amended).  A view or a download of a row whose [expires_at] is at or
    before the time of access answers 410 right after the row was loaded:
    whatever the password, the counters and the limits, and with no other
    call made. *)
Theorem expired_view_and_download_answer_410 (req : Req) (w : World) (p : Paste) (t : Z) :
  eq_slug (params_slug req) (pastes w) = [p] ->
  next_fault w = Succeeds ->
  expires_at p = Some t ->
  t <= clock w ->
  getPaste bcrypt_compare req w
    = mkOutcome (Res_json 410 (message "This doc has expired")) (popped w)
        [(Select_single (params_slug req), Succeeds)]
  /\ downloadPaste req w
    = mkOutcome (Res_json 410 (message "Expired")) (popped w)
        [(Select_single (params_slug req), Succeeds)].
Proof.
  intros Hrow Hf Ht Hle.
  assert (E : (t <=? clock w)%Z = true) by lia.
  open_handler. rewrite !bind_succeeds by exact Hf.
  cbn -[eq_slug]. rewrite Hrow. cbn. rewrite Ht. cbn. rewrite E.
  split; reflexivity.
Qed.



(** C9.  On the two endpoints that serve the file, a request that is turned
    away (404, 410, 403 or 401) made no download call on the bucket and its
    answer carries no bytes of the file. *)
Theorem denied_access_reads_no_blob (req : Req) (w : World) :
  (denied (result (getPaste bcrypt_compare req w)) ->
     (forall path f,
        ~ In (Storage_download path, f) (calls (getPaste bcrypt_compare req w)))
     /\ (forall h b, result (getPaste bcrypt_compare req w) <> Res_send h b))
  /\ (denied (result (downloadPaste req w)) ->
       (forall path f, ~ In (Storage_download path, f) (calls (downloadPaste req w)))
       /\ (forall h b, result (downloadPaste req w) <> Res_send h b)).
Proof.
  split; explore; unfold denied; cbn; intros Hd;
    try (exfalso; lia);
    (split; [intros path f [H|[]]; discriminate | intros; discriminate]).
Qed.



(** [buffer.toString("base64")] *)
Variable toString_base64 : Buffer -> string.

Lemma preview_keeps_stores (req : Req) (w : World) :
  pastes (after (previewPaste toString_base64 req w)) = pastes w
  /\ bucket (after (previewPaste toString_base64 req w)) = bucket w.
Proof. explore; split; reflexivity. Qed.

(** C7.  A preview writes nothing: it makes no update call and leaves the
    table (so every [view_count] and [download_count]) and the bucket as they
    were, however often it is repeated; and it is not subject to the view
    limit: on a row whose [view_count] equals [max_views] it answers 200 with
    the metadata and the file when the stores do their work. *)
Theorem preview_consumes_nothing (req : Req) (w : World) :
  (pastes (after (previewPaste toString_base64 req w)) = pastes w
   /\ bucket (after (previewPaste toString_base64 req w)) = bucket w
   /\ forall s u f,
        ~ In (Update s u, f) (calls (previewPaste toString_base64 req w)))
  /\ (forall n,
       pastes (Nat.iter n (fun w' => after (previewPaste toString_base64 req w')) w)
         = pastes w)
  /\ (forall p m b,
       eq_slug (params_slug req) (pastes w) = [p] ->
       max_views p = Some m ->
       view_count p = m ->
       next_fault w = Succeeds ->
       next_fault (popped w) = Succeeds ->
       bucket w !! storage_path p = Some b ->
       result (previewPaste toString_base64 req w)
         = Res_json 200 (JObject [("metadata", preview_metadata p);
                                  ("file", JStr (toString_base64 b));
                                  ("mimetype", JStr (mimetype p))])).
Proof.
  split; [|split].
  - destruct (preview_keeps_stores req w) as [Ht Hb].
    split; [exact Ht | split; [exact Hb |]].
    explore; intros s u f HIn;
      repeat (destruct HIn as [HIn|HIn]; [discriminate HIn |]);
      contradiction.
  - induction n as [|n IH]; [reflexivity|].
    rewrite Nat.iter_succ.
    rewrite (proj1 (preview_keeps_stores req _)). exact IH.
  - intros p m b Hrow _ _ Hf1 Hf2 Hb.
    open_handler. rewrite bind_succeeds by exact Hf1.
    cbn -[eq_slug bind supabase]. rewrite Hrow. cbn -[bind supabase].
    rewrite bind_succeeds by exact Hf2.
    cbn. rewrite Hb. reflexivity.
Qed.


End Policy.

(** ** The properties on the sample data *)

(** C1: the claim fails for a preview.  The sample row expired a second
    before the access, and its preview is answered 200 with the file, not
    410. *)
Lemma preview_serves_expired_paste :
  expires_at expired_row = Some 1699999999000
  /\ 1699999999000 < clock (sample_world [expired_row] [])
  /\ result (previewPaste sample_base64 (sample_req None)
               (sample_world [expired_row] []))
       = Res_json 200 (JObject [("metadata", preview_metadata expired_row);
                                ("file", JStr (sample_base64 sample_bytes));
                                ("mimetype", JStr "application/pdf")])
  /\ status (result (previewPaste sample_base64 (sample_req None)
                       (sample_world [expired_row] []))) <> 410.
Proof.
  split; [reflexivity|]. split; [reflexivity|]. split; [reflexivity|].
  vm_compute. discriminate.
Qed.

Lemma expired_view_and_download_witness :
  getPaste sample_compare (sample_req (Some "secret")) (sample_world [expired_row] [])
    = mkOutcome (Res_json 410 (message "This doc has expired"))
        (popped (sample_world [expired_row] []))
        [(Select_single (params_slug (sample_req (Some "secret"))), Succeeds)]
  /\ downloadPaste (sample_req (Some "secret")) (sample_world [expired_row] [])
    = mkOutcome (Res_json 410 (message "Expired"))
        (popped (sample_world [expired_row] []))
        [(Select_single (params_slug (sample_req (Some "secret"))), Succeeds)].
Proof.
  apply (expired_view_and_download_answer_410 sample_compare
           (sample_req (Some "secret")) (sample_world [expired_row] [])
           expired_row 1699999999000).
  - reflexivity.
  - reflexivity.
  - reflexivity.
  - vm_compute. discriminate.
Defined.



(** C3: the upload resolves with an error, which [createPaste] does not
    look at: the row is inserted, the answer is 201, and the bucket has no
    blob at the row's [storage_path]. *)
Theorem create_keeps_row_of_failed_upload :
  let o := createPaste sample_Number sample_hash "https://api.example.com"
             sample_uuid sample_upload (fresh_world [ReturnsError]) in
  calls o
    = [(Storage_upload "uploads/3f2a9c1e-notes.pdf", ReturnsError);
       (Insert {| new_slug := "3f2a9c1e"; new_user_id := "u1";
                  new_filename := "notes.pdf"; new_mimetype := "application/pdf";
                  new_storage_path := "uploads/3f2a9c1e-notes.pdf";
                  new_password_hash := None;
                  new_expires_at := Some 1700003600000;
                  new_max_views := None; new_max_downloads := None |},
        Succeeds)]
  /\ result o
       = Res_json 201
           (JObject [("url", JStr "https://api.example.com/api/pastes/3f2a9c1e");
                     ("protected", JBool false)])
  /\ eq_slug "3f2a9c1e" (pastes (after o))
       = [created_row (Some 1700003600000)]
  /\ bucket (after o) !! "uploads/3f2a9c1e-notes.pdf" = None.
Proof. vm_compute. repeat split; reflexivity. Qed.

(** When the upload call rejects instead, nothing is inserted. *)
Example create_stops_when_upload_rejects :
  let o := createPaste sample_Number sample_hash "https://api.example.com"
             sample_uuid sample_upload (fresh_world [Rejects]) in
  result o = Next FetchError
  /\ calls o = [(Storage_upload "uploads/3f2a9c1e-notes.pdf", Rejects)]
  /\ pastes (after o) = [].
Proof. vm_compute. repeat split; reflexivity. Qed.

(** C4: a row whose [expires_at] is null is answered 410 by a view and by a
    download, with no limit or password looked at: [new Date(null)] is the
    epoch, which lies before any time of access. *)
Theorem null_expiry_answers_410 :
  expires_at unexpiring_row = None
  /\ getPaste sample_compare (sample_req None) (sample_world [unexpiring_row] [])
       = mkOutcome (Res_json 410 (message "This doc has expired"))
           (popped (sample_world [unexpiring_row] []))
           [(Select_single "3f2a9c1e", Succeeds)]
  /\ downloadPaste (sample_req None) (sample_world [unexpiring_row] [])
       = mkOutcome (Res_json 410 (message "Expired"))
           (popped (sample_world [unexpiring_row] []))
           [(Select_single "3f2a9c1e", Succeeds)].
Proof. repeat split; reflexivity. Qed.

(** The listing guards the same test against null and does not flag the row
    as expired. *)
Example listing_does_not_flag_null_expiry :
  getUserPastes_expired unexpiring_row (clock (sample_world [unexpiring_row] []))
    = JNull.
Proof. reflexivity. Qed.

(** Such a row comes out of [createPaste] itself when [expires_in] is so
    large that the expiry is not a valid date. *)
Example huge_expiry_is_stored_as_null :
  let o := createPaste sample_Number sample_hash "https://api.example.com"
             sample_uuid
             {| body_user_id := Some "u1"; body_password := None;
                body_expires_in := Some "1000000000000";
                body_max_views := None; body_max_downloads := None;
                file := file sample_upload |}
             (fresh_world []) in
  status (result o) = 201
  /\ pastes (after o) = [created_row None].
Proof. vm_compute. repeat split; reflexivity. Qed.



Lemma preview_consumes_nothing_witness :
  result (previewPaste sample_base64 (sample_req None) (sample_world [exhausted_row] []))
    = Res_json 200 (JObject [("metadata", preview_metadata exhausted_row);
                             ("file", JStr (sample_base64 sample_bytes));
                             ("mimetype", JStr (mimetype exhausted_row))]).
Proof.
  apply (proj2 (proj2 (preview_consumes_nothing sample_base64 (sample_req None)
                         (sample_world [exhausted_row] [])))
           exhausted_row 2 sample_bytes).
  - reflexivity.
  - reflexivity.
  - reflexivity.
  - reflexivity.
  - reflexivity.
  - reflexivity.
Defined.


Lemma denied_access_reads_no_blob_witness :
  ~ In (Storage_download "uploads/3f2a9c1e-notes.pdf", Succeeds)
       (calls (getPaste sample_compare (sample_req None)
                 (sample_world [protected_row] [])))
  /\ ~ In (Storage_download "uploads/3f2a9c1e-notes.pdf", Succeeds)
          (calls (downloadPaste (sample_req None) (sample_world [expired_row] []))).
Proof.
  split.
  - apply (proj1 (proj1 (denied_access_reads_no_blob sample_compare (sample_req None)
                           (sample_world [protected_row] []))
                    ltac:(vm_compute; auto))).
  - apply (proj1 (proj2 (denied_access_reads_no_blob sample_compare (sample_req None)
                           (sample_world [expired_row] []))
                    ltac:(vm_compute; auto))).
Defined.


(** ** Further properties of the controllers *)

(** *** [createPaste] *)

Section Creation.

Variable Number : string -> option Z.
Variable bcrypt_hash : string -> string.
Variable BACKEND_BASE_URL : string.

(** X1.  A create request without a non-empty [user_id], without a file or
    without a non-empty [expires_in] is answered 400; no call is made and
    the world is as it was. *)
Theorem create_requires_its_fields (uuid : string) (req : CreateReq) (w : World) :
  truthy (body_user_id req) = false \/ file req = None
    \/ truthy (body_expires_in req) = false ->
  createPaste Number bcrypt_hash BACKEND_BASE_URL uuid req w
    = mkOutcome (Res_json 400 (message "user_id, file and expires_in are required"))
        w [].
Proof.
  intros H. open_handler.
  destruct (file req) as [f|]; [|reflexivity].
  destruct (truthy (body_user_id req)); [|reflexivity].
  destruct (truthy (body_expires_in req)); [|reflexivity].
  destruct H as [H|[H|H]]; discriminate.
Qed.

(** X2.  A create request whose [expires_in] is not a number, or is zero or
    negative, is answered 400; no call is made and the world is as it
    was. *)
Theorem create_requires_positive_expiry (uuid : string) (req : CreateReq) (w : World)
    (text : string) :
  body_expires_in req = Some text ->
  Number text = None \/ (exists m, Number text = Some m /\ m <= 0) ->
  status (result (createPaste Number bcrypt_hash BACKEND_BASE_URL uuid req w)) = 400
  /\ calls (createPaste Number bcrypt_hash BACKEND_BASE_URL uuid req w) = []
  /\ after (createPaste Number bcrypt_hash BACKEND_BASE_URL uuid req w) = w.
Proof.
  intros He H. open_handler. rewrite He. cbn [default from_option id].
  destruct (file req) as [f|]; [|repeat split].
  destruct (negb (truthy (body_user_id req)) || negb (truthy (Some text)));
    [repeat split|].
  destruct H as [H|(m & H & Hm)]; rewrite H; [repeat split|].
  assert (E : (m <=? 0)%Z = true) by lia.
  rewrite E. repeat split.
Qed.

(** X3.  The calls of a create: none when it answers 400; otherwise the
    upload first, and the insert only after an upload call that did not
    reject.  Whatever the two calls resolve with, the answer is 201 unless
    one of them rejects. *)
Theorem create_call_discipline (uuid : string) (req : CreateReq) (w : World) :
  let o := createPaste Number bcrypt_hash BACKEND_BASE_URL uuid req w in
  (status (result o) = 400 /\ calls o = [] /\ after o = w)
  \/ (exists path,
        calls o = [(Storage_upload path, Rejects)]
        /\ result o = Next FetchError
        /\ pastes (after o) = pastes w /\ bucket (after o) = bucket w)
  \/ (exists path f r f',
        calls o = [(Storage_upload path, f); (Insert r, f')]
        /\ f <> Rejects
        /\ new_storage_path r = path
        /\ (f' = Rejects -> result o = Next FetchError)
        /\ (f' <> Rejects -> status (result o) = 201)).
Proof.
  cbv zeta. explore;
    first
      [ left; repeat split; reflexivity
      | right; left; eexists; repeat split; reflexivity
      | right; right; do 4 eexists;
        (split; [reflexivity|]); (split; [discriminate|]);
        (split; [reflexivity|]); split; intros; congruence ].
Qed.


End Creation.

(** *** The handlers that read a paste *)

Lemma eq_slug_only s t p r :
  eq_slug s t = [p] -> r ∈ t -> slug r = s -> r = p.
Proof.
  intros Hrow Hin Hs.
  assert (Hr : r ∈ eq_slug s t) by (apply list_elem_of_filter; auto).
  rewrite Hrow in Hr. now apply list_elem_of_singleton in Hr.
Qed.

Section Reading.

Variable bcrypt_compare : string -> string -> bool.
Variable toString_base64 : Buffer -> string.

Lemma no_row_is_404 (req : Req) (w : World) :
  (forall p, eq_slug (params_slug req) (pastes w) <> [p])
    \/ next_fault w = ReturnsError ->
  next_fault w <> Rejects ->
  let o404 m :=
    mkOutcome (Res_json 404 (message m)) (popped w)
      [(Select_single (params_slug req), next_fault w)] in
  getPaste bcrypt_compare req w = o404 "Not found"
  /\ downloadPaste req w = o404 "Not found"
  /\ previewPaste toString_base64 req w = o404 "Not found"
  /\ deletePaste req w = o404 "Paste not found".
Proof.
  intros H Hr. cbv zeta.
  repeat split; explore; cbn [pastes popped] in *;
    first [ reflexivity
          | congruence
          | destruct H as [H|H];
            [exfalso; eapply H; eassumption | congruence] ].
Qed.

(** X5.  A slug that names no row, or more than one, or whose select
    resolves with an error, is answered 404 by the view, the download, the
    preview and the delete alike, after that one call and with the world's
    stores untouched. *)
Theorem unknown_slug_is_404 (req : Req) (w : World) :
  (forall p, eq_slug (params_slug req) (pastes w) <> [p])
    \/ next_fault w = ReturnsError ->
  next_fault w <> Rejects ->
  let o404 m :=
    mkOutcome (Res_json 404 (message m)) (popped w)
      [(Select_single (params_slug req), next_fault w)] in
  getPaste bcrypt_compare req w = o404 "Not found"
  /\ downloadPaste req w = o404 "Not found"
  /\ previewPaste toString_base64 req w = o404 "Not found"
  /\ deletePaste req w = o404 "Paste not found".
Proof. apply no_row_is_404. Qed.

(** X6.  The answers of the two endpoints that serve the file: a view is
    answered 200, 401, 403, 404, 410 or 500 and a download 200, 403, 404,
    410 or 500, never 401; the answer is 200 exactly when it is the file,
    and it is 500 exactly when an error went to [next]. *)
Theorem serving_status_codes (req : Req) (w : World) :
  let v := result (getPaste bcrypt_compare req w) in
  let d := result (downloadPaste req w) in
  In (status v) [200; 401; 403; 404; 410; 500]
  /\ In (status d) [200; 403; 404; 410; 500]
  /\ (status v = 200 <-> exists h b, v = Res_send h b)
  /\ (status d = 200 <-> exists h b, d = Res_send h b)
  /\ (status v = 500 <-> exists e, v = Next e)
  /\ (status d = 500 <-> exists e, d = Next e).
Proof.
  cbv zeta.
  repeat match goal with |- _ /\ _ => split end;
    explore; cbn;
    first [ tauto
          | split; [ intros _; eexists; try eexists; reflexivity | reflexivity ]
          | split; [ discriminate | intros [? [? ?]]; discriminate ]
          | split; [ discriminate | intros [? ?]; discriminate ] ].
Qed.

(** X7.  The answers of the other three endpoints: a preview is answered
    200, 404 or 500, a delete 200, 404 or 500, a create 201, 400 or 500. *)
Theorem other_status_codes (Number : string -> option Z) (bcrypt_hash : string -> string)
    (BACKEND_BASE_URL uuid : string) (creq : CreateReq) (req : Req) (w : World) :
  In (status (result (previewPaste toString_base64 req w))) [200; 404; 500]
  /\ In (status (result (deletePaste req w))) [200; 404; 500]
  /\ In (status (result (createPaste Number bcrypt_hash BACKEND_BASE_URL uuid creq w)))
       [201; 400; 500].
Proof.
  repeat split; explore; cbn; tauto.
Qed.

Lemma eq_slug_other_rows s t : eq_slug s (other_rows s t) = [].
Proof.
  unfold eq_slug, other_rows. induction t as [|r t IH]; [reflexivity|].
  rewrite filter_cons. destruct (decide (slug r <> s)) as [N|E]; [|exact IH].
  rewrite filter_cons. now rewrite decide_False by exact N.
Qed.

(** X16.  A delete of a slug that has one row, with its three calls
    succeeding, answers 200 and leaves neither the row nor the blob: the
    table is the table without the rows of that slug, the bucket is the
    bucket without the blob at the row's [storage_path]; other rows and
    other blobs are as they were. *)
Theorem delete_removes_blob_and_row (req : Req) (w : World) (p : Paste) :
  eq_slug (params_slug req) (pastes w) = [p] ->
  next_fault w = Succeeds ->
  next_fault (popped w) = Succeeds ->
  next_fault (popped (popped w)) = Succeeds ->
  let o := deletePaste req w in
  result o = Res_json 200 (message "File deleted successfully")
  /\ pastes (after o) = other_rows (params_slug req) (pastes w)
  /\ eq_slug (params_slug req) (pastes (after o)) = []
  /\ bucket (after o) !! storage_path p = None
  /\ (forall path, path <> storage_path p ->
        bucket (after o) !! path = bucket w !! path).
Proof.
  intros Hrow Hf1 Hf2 Hf3 o. subst o. open_handler.
  rewrite bind_succeeds by exact Hf1.
  cbn -[eq_slug bind supabase]. rewrite Hrow. cbn -[bind supabase popped].
  rewrite bind_succeeds by exact Hf2.
  cbn -[bind supabase popped with_bucket].
  rewrite bind_succeeds by exact Hf3.
  cbn -[other_rows]. fold (other_rows (params_slug req) (pastes w)).
  split; [reflexivity|]. split; [reflexivity|].
  split; [apply eq_slug_other_rows|].
  split; [apply lookup_delete_eq|].
  intros path Hne. apply lookup_delete_ne. congruence.
Qed.

(** X17.  After such a delete the slug is gone for every endpoint: as long
    as the select does not reject, a view, a download, a preview and a
    second delete of it are answered 404. *)
Theorem deleted_paste_is_gone (req : Req) (w : World) (p : Paste) :
  eq_slug (params_slug req) (pastes w) = [p] ->
  next_fault w = Succeeds ->
  next_fault (popped w) = Succeeds ->
  next_fault (popped (popped w)) = Succeeds ->
  let w' := after (deletePaste req w) in
  next_fault w' <> Rejects ->
  status (result (getPaste bcrypt_compare req w')) = 404
  /\ status (result (downloadPaste req w')) = 404
  /\ status (result (previewPaste toString_base64 req w')) = 404
  /\ status (result (deletePaste req w')) = 404.
Proof.
  intros Hrow Hf1 Hf2 Hf3 w' Hr.
  assert (Hgone : eq_slug (params_slug req) (pastes w') = []).
  { subst w'. open_handler.
    rewrite bind_succeeds by exact Hf1.
    cbn -[eq_slug bind supabase]. rewrite Hrow. cbn -[bind supabase popped].
    rewrite bind_succeeds by exact Hf2.
    cbn -[bind supabase popped with_bucket].
    rewrite bind_succeeds by exact Hf3.
    cbn -[other_rows eq_slug]. fold (other_rows (params_slug req) (pastes w)).
    apply eq_slug_other_rows. }
  destruct (no_row_is_404 req w') as (H1 & H2 & H3 & H4).
  - left. intros q Hq. rewrite Hgone in Hq. discriminate.
  - exact Hr.
  - rewrite H1, H2, H3, H4. repeat split.
Qed.

(** X18.  When the blob was removed and the delete call on the table then
    does not succeed, the delete answers 500 and the row stays although its
    blob is gone. *)
Theorem delete_can_leave_a_row_without_blob (req : Req) (w : World) (p : Paste) :
  eq_slug (params_slug req) (pastes w) = [p] ->
  next_fault w = Succeeds ->
  next_fault (popped w) = Succeeds ->
  next_fault (popped (popped w)) <> Succeeds ->
  let o := deletePaste req w in
  status (result o) = 500
  /\ eq_slug (params_slug req) (pastes (after o)) = [p]
  /\ bucket (after o) !! storage_path p = None.
Proof.
  intros Hrow Hf1 Hf2 Hf3 o. subst o. open_handler.
  rewrite bind_succeeds by exact Hf1.
  cbn -[eq_slug bind supabase]. rewrite Hrow. cbn -[bind supabase popped].
  rewrite bind_succeeds by exact Hf2.
  cbn -[bind supabase popped with_bucket].
  destruct (next_fault (popped (popped w))) eqn:E; [congruence | |].
  - rewrite bind_returns_error by exact E. cbn -[eq_slug].
    repeat split; [exact Hrow | apply lookup_delete_eq].
  - rewrite bind_rejects by exact E. cbn -[eq_slug].
    repeat split; [exact Hrow | apply lookup_delete_eq].
Qed.

(** X19.  A preview asks for nothing: for any row that exists, whatever its
    password hash, its expiry and its counters, it answers 200 with the file
    and the metadata (which tell whether the paste is protected) when the
    select and the download succeed; when the download does not succeed or
    the blob is missing it ends in a 500. *)
Theorem preview_serves_any_row (req : Req) (w : World) (p : Paste) :
  eq_slug (params_slug req) (pastes w) = [p] ->
  next_fault w = Succeeds ->
  (forall b,
     next_fault (popped w) = Succeeds ->
     bucket w !! storage_path p = Some b ->
     result (previewPaste toString_base64 req w)
       = Res_json 200 (JObject [("metadata", preview_metadata p);
                                ("file", JStr (toString_base64 b));
                                ("mimetype", JStr (mimetype p))]))
  /\ (next_fault (popped w) <> Succeeds \/ bucket w !! storage_path p = None ->
      status (result (previewPaste toString_base64 req w)) = 500).
Proof.
  intros Hrow Hf1. split.
  - intros b Hf2 Hb. open_handler. rewrite bind_succeeds by exact Hf1.
    cbn -[eq_slug bind supabase]. rewrite Hrow. cbn -[bind supabase].
    rewrite bind_succeeds by exact Hf2.
    cbn. rewrite Hb. reflexivity.
  - intros H. explore; cbn [pastes bucket popped] in *;
      first [ reflexivity
            | congruence
            | destruct H; congruence ].
Qed.

End Reading.

(** *** What a sequence of accesses does to the table *)

Lemma bumped_refl (t : list Paste) : Forall2 bumped t t.
Proof. apply Forall_Forall2_diag, Forall_forall. intros r _. now left. Qed.

Lemma bumped_update s p u t :
  eq_slug s t = [p] ->
  u = Set_view_count (view_count p + 1)
    \/ u = Set_download_count (download_count p + 1) ->
  Forall2 bumped t
    (map (fun r => if decide (slug r = s) then apply_patch u r else r) t).
Proof.
  intros Hrow Hu. apply Forall2_fmap_r, Forall_Forall2_diag, Forall_forall.
  intros r Hin. unfold compose. cbn beta.
  destruct (decide (slug r = s)) as [E|N]; [|now left].
  rewrite (eq_slug_only s t p r Hrow Hin E).
  destruct Hu as [->| ->]; [right; left | right; right]; reflexivity.
Qed.

Lemma capped_update_views s p t :
  eq_slug s t = [p] ->
  match max_views p with
  | Some m => (m <=? view_count p)%Z
  | None => false
  end = false ->
  Forall capped t ->
  Forall capped
    (map (fun r => if decide (slug r = s)
                   then apply_patch (Set_view_count (view_count p + 1)) r else r) t).
Proof.
  intros Hrow Hgate Hc. apply Forall_fmap, Forall_forall. intros r Hin.
  rewrite Forall_forall in Hc. specialize (Hc r Hin). cbn.
  destruct (decide (slug r = s)) as [E|N]; [|exact Hc].
  rewrite (eq_slug_only s t p r Hrow Hin E) in *.
  destruct Hc as [_ Hd]. split; cbn; [|exact Hd].
  intros m Hm. rewrite Hm in Hgate. lia.
Qed.

Lemma capped_update_downloads s p t :
  eq_slug s t = [p] ->
  match max_downloads p with
  | Some m => (m <=? download_count p)%Z
  | None => false
  end = false ->
  Forall capped t ->
  Forall capped
    (map (fun r => if decide (slug r = s)
                   then apply_patch (Set_download_count (download_count p + 1)) r
                   else r) t).
Proof.
  intros Hrow Hgate Hc. apply Forall_fmap, Forall_forall. intros r Hin.
  rewrite Forall_forall in Hc. specialize (Hc r Hin). cbn.
  destruct (decide (slug r = s)) as [E|N]; [|exact Hc].
  rewrite (eq_slug_only s t p r Hrow Hin E) in *.
  destruct Hc as [Hv _]. split; cbn; [exact Hv|].
  intros m Hm. rewrite Hm in Hgate. lia.
Qed.

Lemma bumped_grown r r' : bumped r r' -> grown r r'.
Proof.
  intros [->|[->| ->]]; unfold grown; cbn; repeat split; lia.
Qed.

Lemma grown_trans r1 r2 r3 : grown r1 r2 -> grown r2 r3 -> grown r1 r3.
Proof.
  unfold grown. intros H1 H2.
  destruct H1 as (?&?&?&?&?&?&?&?&?&?&?&?).
  destruct H2 as (?&?&?&?&?&?&?&?&?&?&?&?).
  repeat split; try congruence; lia.
Qed.

Section Sequences.

Variable bcrypt_compare : string -> string -> bool.
Variable toString_base64 : Buffer -> string.

Lemma one_access_bumps (a : Access) (w : World) :
  Forall2 bumped (pastes w)
    (pastes (after (access bcrypt_compare toString_base64 a w))).
Proof.
  destruct a as [req|req|req]; unfold access; explore;
    cbn [pastes popped with_pastes] in *;
    first [ apply bumped_refl
          | eapply bumped_update; [eassumption | auto] ].
Qed.

(** X8.  A view, a download or a preview, whatever the stores do, changes no
    row other than by raising one counter by one: no row is added, removed
    or reordered and no other field is written. *)
Theorem access_only_bumps_a_counter (a : Access) (w : World) :
  Forall2 bumped (pastes w)
    (pastes (after (access bcrypt_compare toString_base64 a w))).
Proof. apply one_access_bumps. Qed.

(** X9.  Over any sequence of views, downloads and previews, whatever the
    stores do, the table keeps its rows, in order, each with its counters
    not lower than before and every other field as it was. *)
Theorem accesses_only_grow_counters (l : list Access) (w : World) :
  Forall2 grown (pastes w)
    (pastes (after_all bcrypt_compare toString_base64 l w)).
Proof.
  revert w. induction l as [|a l IH]; intros w.
  - apply Forall_Forall2_diag, Forall_forall. intros r _.
    apply bumped_grown. now left.
  - cbn [after_all foldl].
    eapply Forall2_trans; [| | apply IH].
    + intros r1 r2 r3. apply grown_trans.
    + eapply Forall2_impl; [apply one_access_bumps |].
      intros r r'. apply bumped_grown.
Qed.

(** X10.  Accesses made one after the other never take a counter past its
    limit: if every row has [view_count <= max_views] and
    [download_count <= max_downloads] (where set), the same holds after any
    sequence of views, downloads and previews, whatever the stores do. *)
Theorem accesses_keep_the_limits (l : list Access) (w : World) :
  Forall capped (pastes w) ->
  Forall capped (pastes (after_all bcrypt_compare toString_base64 l w)).
Proof.
  revert w. induction l as [|a l IH]; intros w Hc; [exact Hc|].
  cbn [after_all foldl]. apply IH. clear IH.
  revert Hc. destruct a as [req|req|req]; unfold access; explore;
    cbn [pastes popped with_pastes] in *; intros Hc;
    first [ exact Hc
          | apply capped_update_views; assumption
          | apply capped_update_downloads; assumption ].
Qed.

End Sequences.

(** *** Serving a live paste *)





Section Serving.

Variable bcrypt_compare : string -> string -> bool.








End Serving.

(** *** From upload to access *)

Section RoundTrip.

Variable Number : string -> option Z.
Variable bcrypt_hash : string -> string.
Variable bcrypt_compare : string -> string -> bool.
Variable BACKEND_BASE_URL : string.




End RoundTrip.

(** *** The listing *)

#[global] Instance newer_first_total : Total newer_first.
Proof. intros a b. unfold newer_first. lia. Qed.

#[global] Instance newer_first_transitive : Transitive newer_first.
Proof. intros a b c. unfold newer_first. lia. Qed.

Section ListingFacts.

Variable PUBLIC_BASE_URL : string.
Variable BACKEND_BASE_URL : string.

(** X20.  When its select succeeds, the listing answers one object for each
    row of the user and for no other row, the newest first ([created_at]
    never increasing along the list), and writes nothing. *)
Theorem listing_is_the_users_rows (userId : string) (w : World) :
  next_fault w = Succeeds ->
  exists rows,
    (getUserPastes PUBLIC_BASE_URL BACKEND_BASE_URL userId w).1
      = Res_json_array (map (listed PUBLIC_BASE_URL BACKEND_BASE_URL (clock w)) rows)
    /\ rows ≡ₚ eq_user_id userId (pastes w)
    /\ (forall r, r ∈ rows <-> r ∈ pastes w /\ user_id r = userId)
    /\ StronglySorted newer_first rows
    /\ pastes (getUserPastes PUBLIC_BASE_URL BACKEND_BASE_URL userId w).2 = pastes w
    /\ bucket (getUserPastes PUBLIC_BASE_URL BACKEND_BASE_URL userId w).2 = bucket w.
Proof.
  intros Hf. unfold getUserPastes. rewrite Hf.
  exists (order_created_at_desc (eq_user_id userId (pastes w))).
  assert (P : order_created_at_desc (eq_user_id userId (pastes w))
                ≡ₚ eq_user_id userId (pastes w))
    by apply merge_sort_Permutation.
  split; [reflexivity|]. split; [exact P|]. split.
  - intros r. rewrite P. unfold eq_user_id. rewrite list_elem_of_filter. tauto.
  - split; [apply StronglySorted_merge_sort; apply _ | split; reflexivity].
Qed.

Variable bcrypt_compare : string -> string -> bool.

(** X21.  For a row with an expiry, the listing's [expired] flag and the
    two serving endpoints agree: the flag is [true] exactly when a view, and
    a download, of the row is answered 410. *)
Theorem listing_flag_matches_access (req : Req) (w : World) (p : Paste) (t : Z) :
  eq_slug (params_slug req) (pastes w) = [p] ->
  next_fault w = Succeeds ->
  expires_at p = Some t ->
  (getUserPastes_expired p (clock w) = JBool true
     <-> status (result (getPaste bcrypt_compare req w)) = 410)
  /\ (getUserPastes_expired p (clock w) = JBool true
     <-> status (result (downloadPaste req w)) = 410).
Proof.
  intros Hrow Hf Ht. unfold getUserPastes_expired. rewrite Ht. cbn [new_Date].
  split; explore; cbn [pastes clock popped] in *;
    try congruence;
    rewrite Hrow in *; simplify_eq;
    match goal with
    | H : expires_at _ = Some _ |- _ => rewrite H in *
    end;
    cbn [new_Date] in *;
    match goal with
    | H : (_ <=? _)%Z = _ |- _ => rewrite H
    end;
    (split; [intros ?; first [reflexivity | discriminate]
            | cbn; intros ?; first [reflexivity | discriminate]]).
Qed.

End ListingFacts.

(** *** The registration *)

(** X22.  A registration without a non-empty [user_id], [email] or
    [nickname] is answered 400 and the service is not called: the table and
    the behaviours to come are as they were. *)
Theorem register_requires_its_fields (req : RegisterReq) (w : UserWorld) :
  truthy (reg_user_id req) = false \/ truthy (reg_email req) = false
    \/ truthy (reg_nickname req) = false ->
  registerUser req w
    = (Res_json 400 (message "user_id, email and nickname are required"), w).
Proof.
  intros H. unfold registerUser.
  destruct (truthy (reg_user_id req)); [|reflexivity].
  destruct (truthy (reg_email req)); [|reflexivity].
  destruct (truthy (reg_nickname req)); [|reflexivity].
  destruct H as [H|[H|H]]; discriminate.
Qed.

Lemma users_insert_known (u : User) (w : UserWorld) :
  hd U_works (user_faults w) = U_works ->
  Exists (fun r => u_user_id r = u_user_id u) (users w) ->
  createUserIfNotExists u w
    = (Normal false, {| users := users w; user_faults := tl (user_faults w) |}).
Proof.
  intros Hf Hex. unfold createUserIfNotExists, users_insert. rewrite Hf.
  now rewrite bool_decide_eq_true_2 by exact Hex.
Qed.

Lemma users_insert_new (u : User) (w : UserWorld) :
  hd U_works (user_faults w) = U_works ->
  ~ Exists (fun r => u_user_id r = u_user_id u) (users w) ->
  createUserIfNotExists u w
    = (Normal true,
       {| users := users w ++ [u]; user_faults := tl (user_faults w) |}).
Proof.
  intros Hf Hex. unfold createUserIfNotExists, users_insert. rewrite Hf.
  now rewrite bool_decide_eq_false_2 by exact Hex.
Qed.

(** X23.  Registering is idempotent: for a [user_id] the table does not
    have, with the service working, the first registration answers 201 and
    appends the user; a second one for the same [user_id], whatever email
    and nickname it brings, answers 200 and leaves the table as the first
    left it. *)
Theorem register_twice (uid email nickname email' nickname' : string) (w : UserWorld) :
  uid <> EmptyString -> email <> EmptyString -> nickname <> EmptyString ->
  email' <> EmptyString -> nickname' <> EmptyString ->
  user_faults w = [] ->
  ~ Exists (fun r => u_user_id r = uid) (users w) ->
  let first := registerUser {| reg_user_id := Some uid; reg_email := Some email;
                               reg_nickname := Some nickname |} w in
  let second := registerUser {| reg_user_id := Some uid; reg_email := Some email';
                                reg_nickname := Some nickname' |} first.2 in
  first.1 = Res_json 201 (message "User created successfully")
  /\ users first.2
     = users w ++ [{| u_user_id := uid; u_email := email; u_nickname := nickname |}]
  /\ second.1 = Res_json 200 (message "User already exists")
  /\ users second.2 = users first.2.
Proof.
  intros Hid He Hn He' Hn' Hf Hnew first second.
  assert (T : forall s, s <> EmptyString -> truthy (Some s) = true).
  { intros s Hs. cbn. destruct s; [congruence | reflexivity]. }
  assert (E1 : first
               = (Res_json 201 (message "User created successfully"),
                  {| users := users w ++ [{| u_user_id := uid; u_email := email;
                                             u_nickname := nickname |}];
                     user_faults := [] |})).
  { subst first. unfold registerUser. cbn [reg_user_id reg_email reg_nickname].
    rewrite !T by assumption. cbn [negb orb default from_option id].
    rewrite users_insert_new.
    - cbn. now rewrite Hf.
    - now rewrite Hf.
    - exact Hnew. }
  subst second. rewrite E1. cbn [fst snd users].
  split; [reflexivity|]. split; [reflexivity|].
  unfold registerUser. cbn [reg_user_id reg_email reg_nickname].
  rewrite !T by assumption. cbn [negb orb default from_option id].
  rewrite users_insert_known.
  - cbn. split; reflexivity.
  - reflexivity.
  - cbn [users u_user_id]. apply Exists_app. right. now left.
Qed.

(** X24.  The outcomes of a registration: only the unique violation 23505
    is taken for "already there" (200); an error of any other code and a
    rejected call go to [next] (500); and the table changes only with a 201,
    by the new user appended at its end. *)
Theorem register_outcomes (req : RegisterReq) (w : UserWorld) :
  let r := (registerUser req w).1 in
  let w' := (registerUser req w).2 in
  ((status r = 201
    /\ exists u, users w' = users w ++ [u] /\ Some (u_user_id u) = reg_user_id req)
   \/ (In (status r) [200; 400; 500] /\ users w' = users w))
  /\ (hd U_works (user_faults w) = U_error "23505" ->
      status r = 400 \/ status r = 200)
  /\ (forall c, hd U_works (user_faults w) = U_error c -> c <> "23505" ->
        status r = 400 \/ r = Next PostgrestError)
  /\ (hd U_works (user_faults w) = U_rejects ->
        status r = 400 \/ r = Next FetchError).
Proof.
  cbv zeta. unfold registerUser, createUserIfNotExists, users_insert.
  destruct (negb (truthy (reg_user_id req)) || negb (truthy (reg_email req))
            || negb (truthy (reg_nickname req))) eqn:V.
  { cbn. repeat split; auto. }
  assert (Hid : exists uid, reg_user_id req = Some uid).
  { destruct (reg_user_id req) as [uid|]; [eauto | discriminate V]. }
  destruct Hid as [uid Hid]. rewrite Hid. cbn [default from_option].
  destruct (hd U_works (user_faults w)) as [|c|] eqn:F.
  - destruct (bool_decide _) eqn:D; cbn.
    + split; [right; split; [tauto | reflexivity]|].
      repeat split; intros; discriminate.
    + split; [left; split; [reflexivity|]; eexists; split; reflexivity|].
      repeat split; intros; discriminate.
  - cbn [code]. destruct (String.eqb c "23505") eqn:C; cbn.
    + split; [right; split; [tauto | reflexivity]|].
      split; [auto|]. split; [|intros; discriminate].
      intros c' Hc Hne. injection Hc as <-.
      apply String.eqb_eq in C. congruence.
    + split; [right; split; [tauto | reflexivity]|].
      split; [|split; [auto | intros; discriminate]].
      intros Hc. injection Hc as ->. discriminate C.
  - cbn. split; [right; split; [tauto | reflexivity]|].
    split; [intros; discriminate|]. split; [intros; discriminate | auto].
Qed.

(** ** The further properties on the sample data *)


Lemma create_requires_its_fields_witness :
  createPaste sample_Number sample_hash "https://api.example.com" sample_uuid
    upload_without_file (fresh_world [])
    = mkOutcome (Res_json 400 (message "user_id, file and expires_in are required"))
        (fresh_world []) [].
Proof.
  apply (create_requires_its_fields sample_Number sample_hash
           "https://api.example.com" sample_uuid upload_without_file (fresh_world [])).
  right. left. reflexivity.
Defined.

Lemma create_requires_positive_expiry_witness :
  status (result (createPaste sample_Number sample_hash "https://api.example.com"
                    sample_uuid (upload_with_expiry "soon") (fresh_world []))) = 400
  /\ calls (createPaste sample_Number sample_hash "https://api.example.com"
              sample_uuid (upload_with_expiry "soon") (fresh_world [])) = []
  /\ after (createPaste sample_Number sample_hash "https://api.example.com"
              sample_uuid (upload_with_expiry "soon") (fresh_world []))
     = fresh_world [].
Proof.
  apply (create_requires_positive_expiry sample_Number sample_hash
           "https://api.example.com" sample_uuid (upload_with_expiry "soon")
           (fresh_world []) "soon").
  - reflexivity.
  - left. reflexivity.
Defined.


Lemma unknown_slug_is_404_witness :
  getPaste sample_compare (sample_req None) (fresh_world [])
    = mkOutcome (Res_json 404 (message "Not found")) (popped (fresh_world []))
        [(Select_single (params_slug (sample_req None)), next_fault (fresh_world []))].
Proof.
  apply (proj1 (unknown_slug_is_404 sample_compare sample_base64 (sample_req None)
                  (fresh_world [])
                  ltac:(left; intros p; discriminate) ltac:(discriminate))).
Defined.

Lemma accesses_keep_the_limits_witness :
  Forall capped
    (pastes (after_all sample_compare sample_base64
               [View (sample_req None); View (sample_req None);
                View (sample_req None); Download (sample_req None)]
               (sample_world [open_row] []))).
Proof.
  apply (accesses_keep_the_limits sample_compare sample_base64).
  repeat constructor; cbn; intros m H; inversion H; subst; lia.
Defined.






Lemma delete_removes_blob_and_row_witness :
  result (deletePaste (sample_req None) (sample_world [protected_row; other_users_row] []))
    = Res_json 200 (message "File deleted successfully")
  /\ pastes (after (deletePaste (sample_req None)
                      (sample_world [protected_row; other_users_row] [])))
     = [other_users_row]
  /\ bucket (after (deletePaste (sample_req None)
                      (sample_world [protected_row; other_users_row] [])))
       !! storage_path protected_row = None.
Proof.
  destruct (delete_removes_blob_and_row (sample_req None)
              (sample_world [protected_row; other_users_row] []) protected_row
              eq_refl eq_refl eq_refl eq_refl)
    as (Hr & Hp & _ & Hb & _).
  split; [exact Hr|]. split; [exact Hp | exact Hb].
Defined.

Lemma deleted_paste_is_gone_witness :
  status (result (getPaste sample_compare (sample_req None)
                    (after (deletePaste (sample_req None)
                              (sample_world [protected_row] []))))) = 404
  /\ status (result (deletePaste (sample_req None)
                       (after (deletePaste (sample_req None)
                                 (sample_world [protected_row] []))))) = 404.
Proof.
  destruct (deleted_paste_is_gone sample_compare sample_base64 (sample_req None)
              (sample_world [protected_row] []) protected_row
              eq_refl eq_refl eq_refl eq_refl ltac:(discriminate))
    as (Hv & _ & _ & Hd).
  split; [exact Hv | exact Hd].
Defined.

Lemma delete_can_leave_a_row_without_blob_witness :
  status (result (deletePaste (sample_req None)
                    (sample_world [protected_row]
                       [Succeeds; Succeeds; ReturnsError]))) = 500
  /\ eq_slug (params_slug (sample_req None))
       (pastes (after (deletePaste (sample_req None)
                         (sample_world [protected_row]
                            [Succeeds; Succeeds; ReturnsError]))))
     = [protected_row]
  /\ bucket (after (deletePaste (sample_req None)
                      (sample_world [protected_row]
                         [Succeeds; Succeeds; ReturnsError])))
       !! storage_path protected_row = None.
Proof.
  apply (delete_can_leave_a_row_without_blob (sample_req None)
           (sample_world [protected_row] [Succeeds; Succeeds; ReturnsError])
           protected_row).
  - reflexivity.
  - reflexivity.
  - reflexivity.
  - discriminate.
Defined.

Lemma preview_serves_any_row_witness :
  result (previewPaste sample_base64 (sample_req None) (sample_world [protected_row] []))
    = Res_json 200 (JObject [("metadata", preview_metadata protected_row);
                             ("file", JStr (sample_base64 sample_bytes));
                             ("mimetype", JStr (mimetype protected_row))])
  /\ status (result (previewPaste sample_base64 (sample_req None)
                       (sample_world [protected_row] [Succeeds; Rejects]))) = 500.
Proof.
  split.
  - apply (proj1 (preview_serves_any_row sample_base64 (sample_req None)
                    (sample_world [protected_row] []) protected_row
                    eq_refl eq_refl) sample_bytes).
    + reflexivity.
    + reflexivity.
  - apply (proj2 (preview_serves_any_row sample_base64 (sample_req None)
                    (sample_world [protected_row] [Succeeds; Rejects]) protected_row
                    eq_refl eq_refl)).
    left. discriminate.
Defined.

Lemma listing_is_the_users_rows_witness :
  exists rows,
    (getUserPastes "https://app.example.com" "https://api.example.com" "u1"
       (sample_world [protected_row; other_users_row] [])).1
      = Res_json_array
          (map (listed "https://app.example.com" "https://api.example.com"
                  (clock (sample_world [protected_row; other_users_row] [])))
               rows)
    /\ rows ≡ₚ eq_user_id "u1" (pastes (sample_world [protected_row; other_users_row] [])).
Proof.
  destruct (listing_is_the_users_rows "https://app.example.com"
              "https://api.example.com" "u1"
              (sample_world [protected_row; other_users_row] []) eq_refl)
    as (rows & Hr & Hp & _).
  exists rows. split; [exact Hr | exact Hp].
Defined.

Lemma listing_flag_matches_access_witness :
  (getUserPastes_expired expired_row (clock (sample_world [expired_row] []))
     = JBool true
   <-> status (result (getPaste sample_compare (sample_req None)
                         (sample_world [expired_row] []))) = 410)
  /\ (getUserPastes_expired expired_row (clock (sample_world [expired_row] []))
        = JBool true
      <-> status (result (downloadPaste (sample_req None)
                            (sample_world [expired_row] []))) = 410).
Proof.
  apply (listing_flag_matches_access sample_compare (sample_req None)
           (sample_world [expired_row] []) expired_row 1699999999000).
  - reflexivity.
  - reflexivity.
  - reflexivity.
Defined.

Lemma register_requires_its_fields_witness :
  registerUser {| reg_user_id := Some "u1"; reg_email := None;
                  reg_nickname := Some "ann" |} no_users
    = (Res_json 400 (message "user_id, email and nickname are required"), no_users).
Proof.
  apply register_requires_its_fields. right. left. reflexivity.
Defined.

Lemma register_twice_witness :
  (registerUser {| reg_user_id := Some "u1"; reg_email := Some "ann@example.com";
                   reg_nickname := Some "ann" |} no_users).1
    = Res_json 201 (message "User created successfully")
  /\ (registerUser {| reg_user_id := Some "u1"; reg_email := Some "a@example.org";
                      reg_nickname := Some "anna" |}
        (registerUser {| reg_user_id := Some "u1"; reg_email := Some "ann@example.com";
                         reg_nickname := Some "ann" |} no_users).2).1
     = Res_json 200 (message "User already exists").
Proof.
  destruct (register_twice "u1" "ann@example.com" "ann" "a@example.org" "anna"
              no_users
              ltac:(discriminate) ltac:(discriminate) ltac:(discriminate)
              ltac:(discriminate) ltac:(discriminate) eq_refl
              ltac:(intros H; inversion H))
    as (H1 & _ & H2 & _).
  split; [exact H1 | exact H2].
Defined.

Lemma register_outcomes_witness :
  status (registerUser {| reg_user_id := Some "u1"; reg_email := Some "ann@example.com";
                          reg_nickname := Some "ann" |}
            {| users := []; user_faults := [U_error "42501"] |}).1 = 400
  \/ (registerUser {| reg_user_id := Some "u1"; reg_email := Some "ann@example.com";
                      reg_nickname := Some "ann" |}
        {| users := []; user_faults := [U_error "42501"] |}).1
     = Next PostgrestError.
Proof.
  apply (proj1 (proj2 (proj2
           (register_outcomes {| reg_user_id := Some "u1";
                                 reg_email := Some "ann@example.com";
                                 reg_nickname := Some "ann" |}
              {| users := []; user_faults := [U_error "42501"] |})))
           "42501" eq_refl).
  discriminate.
Defined.
